(** * PIDWatcher: a shallow embedding of xbmc/utils/PIDWatcher.{h,cpp}

    The watcher is a small record guarded by one (recursive) mutex and one
    condition variable.  Every method body runs with [pid_mutex] held, so a
    method is one atomic block, except where [ensure_pid] sleeps on
    [pid_assigned_condition]: there the lock is released and the rest of the
    method runs as a second atomic block once the thread is woken.

    The embedding therefore writes the methods as programs over the
    instructions the source uses (field access, condition wait and broadcast,
    [kill], [waitpid], logging, [throw]) and runs them against an operating
    system oracle up to the next condition wait. *)

From Stdlib Require Import ZArith List Bool Lia.
Import ListNotations.
Local Open Scope Z_scope.

(** ** Data model *)

(** [pid_t] and [int] are signed machine integers; the code only compares and
    copies them, so no arithmetic can wrap. *)
Definition pid_t := Z.

(** The data members of [class PIDWatcher] (the mutex and the condition
    variable carry no data). *)
Record PIDWatcher : Type := mkPIDWatcher {
  wait_exit_  : bool;   (* wait for the child upon destruction *)
  pid_        : pid_t;  (* the pid to be watched *)
  status_     : Z;      (* return code of waitpid() *)
  has_exited_ : bool    (* true iff pid has exited *)
}.

Definition with_wait_exit_ (b : bool) (s : PIDWatcher) : PIDWatcher :=
  mkPIDWatcher b (pid_ s) (status_ s) (has_exited_ s).
Definition with_pid_ (p : pid_t) (s : PIDWatcher) : PIDWatcher :=
  mkPIDWatcher (wait_exit_ s) p (status_ s) (has_exited_ s).
Definition with_status_ (z : Z) (s : PIDWatcher) : PIDWatcher :=
  mkPIDWatcher (wait_exit_ s) (pid_ s) z (has_exited_ s).
Definition with_has_exited_ (b : bool) (s : PIDWatcher) : PIDWatcher :=
  mkPIDWatcher (wait_exit_ s) (pid_ s) (status_ s) b.

(** The two [runtime_error]s thrown by [set_pid], told apart by their message:
    "Attempt to assign an invalid PID: <pid>" and
    "PIDWatcher is already watching a PID!". *)
Inductive runtime_error : Type :=
| invalid_PID (pid : pid_t)
| already_watching.

(** What a method does to the outside world, in program order. *)
Inductive event : Type :=
| EvCondWait                      (* pid_assigned_condition.wait(lock) *)
| EvNotifyAll                     (* pid_assigned_condition.notifyAll() *)
| EvKill (pid : pid_t) (sig : Z)  (* kill(pid, sig) *)
| EvWaitpid (pid : pid_t)         (* waitpid(pid, &status_, 0): the reap *)
| EvLog.                          (* CLog::Log(LOGERROR, ...) *)

Definition SIGTERM : Z := 15.

(** Status macros of <sys/wait.h> (the usual encoding: low seven bits hold the
    terminating signal, bits 8..15 the exit code). *)
Definition WIFEXITED (status : Z) : bool := Z.land status 127 =? 0.
Definition WEXITSTATUS (status : Z) : Z := Z.shiftr (Z.land status 65280) 8.

(** ** The operating system

    [kill] answers 0 or -1; [waitpid] blocks until the child is gone and then
    either stores its wait status ([Some]) or fails and leaves the status
    word untouched ([None]). *)
Class OS (World : Type) : Type := {
  sys_kill    : World -> pid_t -> Z -> Z * World;
  sys_waitpid : World -> pid_t -> option Z * World
}.

(** ** Programs *)

Inductive Prog (A : Type) : Type :=
| Ret (a : A)
| Throw (e : runtime_error)
| Get (k : PIDWatcher -> Prog A)
| Put (s : PIDWatcher) (k : Prog A)
| CondWait (k : Prog A)
| NotifyAll (k : Prog A)
| Kill (pid : pid_t) (sig : Z) (k : Z -> Prog A)
| Waitpid (pid : pid_t) (k : option Z -> Prog A)
| LogError (k : Prog A).

Arguments Ret {A} a.
Arguments Throw {A} e.
Arguments Get {A} k.
Arguments Put {A} s k.
Arguments CondWait {A} k.
Arguments NotifyAll {A} k.
Arguments Kill {A} pid sig k.
Arguments Waitpid {A} pid k.
Arguments LogError {A} k.

Fixpoint bind {A B : Type} (p : Prog A) (f : A -> Prog B) : Prog B :=
  match p with
  | Ret a => f a
  | Throw e => Throw e
  | Get k => Get (fun s => bind (k s) f)
  | Put s k => Put s (bind k f)
  | CondWait k => CondWait (bind k f)
  | NotifyAll k => NotifyAll (bind k f)
  | Kill pid sig k => Kill pid sig (fun r => bind (k r) f)
  | Waitpid pid k => Waitpid pid (fun r => bind (k r) f)
  | LogError k => LogError (bind k f)
  end.

Declare Scope prog_scope.
Delimit Scope prog_scope with prog.
Notation "x <- p ;; q" := (bind p (fun x => q))
  (at level 61, p at next level, right associativity) : prog_scope.
Notation "p ;; q" := (bind p (fun _ => q))
  (at level 61, right associativity) : prog_scope.
Local Open Scope prog_scope.

Definition get : Prog PIDWatcher := Get (fun s => Ret s).
Definition modify (f : PIDWatcher -> PIDWatcher) : Prog unit :=
  Get (fun s => Put (f s) (Ret tt)).
Definition cond_wait : Prog unit := CondWait (Ret tt).
Definition notifyAll : Prog unit := NotifyAll (Ret tt).
Definition kill (pid : pid_t) (sig : Z) : Prog Z := Kill pid sig (fun r => Ret r).
Definition waitpid (pid : pid_t) : Prog (option Z) := Waitpid pid (fun r => Ret r).
Definition log_error : Prog unit := LogError (Ret tt).
Definition skip : Prog unit := Ret tt.

(** ** Running a program up to its next condition wait *)

Inductive outcome (A : Type) : Type :=
| Returned (a : A)
| Thrown (e : runtime_error)
| Waiting (k : Prog A).   (* asleep on the condition; [k] runs after wake-up *)

Arguments Returned {A} a.
Arguments Thrown {A} e.
Arguments Waiting {A} k.

Record result (World A : Type) : Type := mkResult {
  res : outcome A;
  obj : PIDWatcher;
  env : World;
  evs : list event
}.

Arguments mkResult {World A} res obj env evs.
Arguments res {World A} r.
Arguments obj {World A} r.
Arguments env {World A} r.
Arguments evs {World A} r.

Definition emit {World A : Type} (e : event) (r : result World A) : result World A :=
  mkResult (res r) (obj r) (env r) (e :: evs r).

Fixpoint run {World : Type} {os : OS World} {A : Type}
  (p : Prog A) (s : PIDWatcher) (w : World) : result World A :=
  match p with
  | Ret a => mkResult (Returned a) s w []
  | Throw e => mkResult (Thrown e) s w []
  | Get k => run (k s) s w
  | Put s' k => run k s' w
  | CondWait k => mkResult (Waiting k) s w [EvCondWait]
  | NotifyAll k => emit EvNotifyAll (run k s w)
  | Kill pid sig k =>
      emit (EvKill pid sig) (run (k (fst (sys_kill w pid sig))) s (snd (sys_kill w pid sig)))
  | Waitpid pid k =>
      emit (EvWaitpid pid) (run (k (fst (sys_waitpid w pid))) s (snd (sys_waitpid w pid)))
  | LogError k => emit EvLog (run k s w)
  end.

(** ** The methods of PIDWatcher.cpp

    Methods returning [*this] return [tt] here.  Two places run outside the
    lock: the [pid < 1] test of [set_pid], which looks at the argument only,
    and the read of [status_] in the three status accessors, which the
    header allows because the fields are meant to rest after [wait()]; both
    are kept inside the block of their method. *)

(** [PIDWatcher::PIDWatcher()] *)
Definition PIDWatcher_new : PIDWatcher := mkPIDWatcher true 0 0 false.

(** [PIDWatcher::PIDWatcher(pid_t pid)] *)
Definition PIDWatcher_of (pid : pid_t) : PIDWatcher := mkPIDWatcher true pid 0 false.

(** [bool PIDWatcher::has_pid()]: [return pid_ > 0;] *)
Definition has_pid : Prog bool :=
  s <- get ;; Ret (0 <? pid_ s).

(** [void PIDWatcher::ensure_pid(CSingleLock&)]: one wait, under [if], not
    re-tested after wake-up. *)
Definition ensure_pid : Prog unit :=
  b <- has_pid ;;
  if negb b then cond_wait else skip.

(** [bool PIDWatcher::running()]: [has_exited_ = kill(pid_, 0) != 0] when
    not yet exited and a PID is there; answers [!has_exited_]. *)
Definition running : Prog bool :=
  s <- get ;;
  (if negb (has_exited_ s) then
     b <- has_pid ;;
     if b then
       r <- kill (pid_ s) 0 ;;
       modify (with_has_exited_ (negb (r =? 0)))
     else skip
   else skip) ;;
  s' <- get ;;
  Ret (negb (has_exited_ s')).

(** [PIDWatcher& PIDWatcher::set_pid(pid_t)] *)
Definition set_pid (pid : pid_t) : Prog unit :=
  if pid <? 1 then Throw (invalid_PID pid) else
  b <- has_pid ;;
  s <- get ;;
  if b && negb (pid =? pid_ s) then Throw already_watching else
  modify (with_pid_ pid) ;;
  notifyAll.

(** [pid_t PIDWatcher::get_pid()] *)
Definition get_pid : Prog pid_t :=
  ensure_pid ;;
  s <- get ;;
  Ret (pid_ s).

(** [PIDWatcher& PIDWatcher::wait_(CSingleLock&)] *)
Definition wait_ : Prog unit :=
  b <- has_pid ;;
  s <- get ;;
  (if b && negb (has_exited_ s) then
     r <- waitpid (pid_ s) ;;
     match r with
     | Some st => modify (with_status_ st)
     | None => skip
     end
   else skip) ;;
  modify (with_has_exited_ true).

(** [PIDWatcher& PIDWatcher::wait()] *)
Definition wait : Prog unit :=
  ensure_pid ;;
  wait_.

(** [PIDWatcher& PIDWatcher::reset()] *)
Definition reset : Prog unit :=
  modify (with_pid_ 0) ;;
  modify (with_status_ 0) ;;
  modify (with_has_exited_ true).

(** [PIDWatcher& PIDWatcher::terminate()]: a failed [kill] is logged only. *)
Definition terminate : Prog unit :=
  b <- has_pid ;;
  s <- get ;;
  if b && negb (has_exited_ s) then
    r <- kill (pid_ s) SIGTERM ;;
    if negb (r =? 0) then log_error else skip
  else skip.

Definition getWaitExit : Prog bool :=
  s <- get ;; Ret (wait_exit_ s).

Definition setWaitExit (b : bool) : Prog unit :=
  modify (with_wait_exit_ b).

(** [exitedProperly()], [getExitStatus()] and [success()] imply [wait()]. *)
Definition exitedProperly : Prog bool :=
  wait ;;
  s <- get ;;
  Ret (WIFEXITED (status_ s)).

Definition getExitStatus : Prog Z :=
  wait ;;
  s <- get ;;
  Ret (WEXITSTATUS (status_ s)).

Definition success : Prog bool :=
  wait ;;
  s <- get ;;
  Ret (WIFEXITED (status_ s) && (WEXITSTATUS (status_ s) =? 0)).

(** [PIDWatcher::~PIDWatcher()] *)
Definition destructor : Prog unit :=
  b <- has_pid ;;
  s <- get ;;
  if b && wait_exit_ s then wait else skip.

(** ** Calls, threads and interleavings *)

(** The public methods a client thread can call on a live watcher. *)
Inductive call : Type :=
| c_set_pid (pid : pid_t)
| c_get_pid
| c_wait
| c_reset
| c_terminate
| c_running
| c_getWaitExit
| c_setWaitExit (b : bool)
| c_exitedProperly
| c_getExitStatus
| c_success
| c_has_pid.

Inductive value : Type :=
| v_self              (* the watcher itself, for call chaining *)
| v_bool (b : bool)
| v_int (z : Z).

Definition method (c : call) : Prog value :=
  match c with
  | c_set_pid pid    => set_pid pid ;; Ret v_self
  | c_get_pid        => z <- get_pid ;; Ret (v_int z)
  | c_wait           => wait ;; Ret v_self
  | c_reset          => reset ;; Ret v_self
  | c_terminate      => terminate ;; Ret v_self
  | c_running        => b <- running ;; Ret (v_bool b)
  | c_getWaitExit    => b <- getWaitExit ;; Ret (v_bool b)
  | c_setWaitExit b  => setWaitExit b ;; Ret v_self
  | c_exitedProperly => b <- exitedProperly ;; Ret (v_bool b)
  | c_getExitStatus  => z <- getExitStatus ;; Ret (v_int z)
  | c_success        => b <- success ;; Ret (v_bool b)
  | c_has_pid        => b <- has_pid ;; Ret (v_bool b)
  end.

(** A watcher shared by any number of threads: its fields, the world, the
    threads asleep on [pid_assigned_condition] (each with the rest of its
    method) and everything done so far. *)
Record Config (World : Type) : Type := mkConfig {
  watcher  : PIDWatcher;
  world    : World;
  sleepers : list (Prog value);
  history  : list event
}.

Arguments mkConfig {World} watcher world sleepers history.
Arguments watcher {World} c.
Arguments world {World} c.
Arguments sleepers {World} c.
Arguments history {World} c.

(** One atomic block: some thread calls a method, or sleeper number [i]
    wakes up (by a broadcast or spuriously) and finishes its method. *)
Inductive action : Type :=
| Call (c : call)
| Wake (i : nat).

Definition park (r : outcome value) (q : list (Prog value)) : list (Prog value) :=
  match r with
  | Waiting k => q ++ [k]
  | _ => q
  end.

Fixpoint drop_nth {A : Type} (i : nat) (l : list A) : list A :=
  match l, i with
  | [], _ => []
  | _ :: t, O => t
  | h :: t, S j => h :: drop_nth j t
  end.

(** Number of reaps in a history. *)
Definition is_reap (e : event) : bool :=
  match e with EvWaitpid _ => true | _ => false end.
Definition reaps (h : list event) : nat := length (filter is_reap h).

(** A thread blocks where it sleeps on the condition or sits in [waitpid]. *)
Definition is_blocking (e : event) : bool :=
  match e with EvCondWait | EvWaitpid _ => true | _ => false end.
Definition blocks (h : list event) : bool := existsb is_blocking h.

(** Has a PID been assigned ([pid_ > 0], the test of [has_pid])? *)
Definition assigned (s : PIDWatcher) : bool := 0 <? pid_ s.

Section Threads.
Context {World : Type} {os : OS World}.

Definition commit (r : result World value) (q : list (Prog value))
  (h : list event) : Config World :=
  mkConfig (obj r) (env r) (park (res r) q) (h ++ evs r).

Definition step (cfg : Config World) (a : action) : Config World :=
  match a with
  | Call c =>
      commit (run (method c) (watcher cfg) (world cfg)) (sleepers cfg) (history cfg)
  | Wake i =>
      match nth_error (sleepers cfg) i with
      | Some k =>
          commit (run k (watcher cfg) (world cfg))
                 (drop_nth i (sleepers cfg)) (history cfg)
      | None => cfg
      end
  end.

Definition exec (cfg : Config World) (acts : list action) : Config World :=
  fold_left step acts cfg.

(** A freshly constructed watcher, nobody asleep, nothing done yet. *)
Definition fresh (s : PIDWatcher) (w : World) : Config World :=
  mkConfig s w [] [].

(** The watcher goes out of scope. *)
Definition destroy (cfg : Config World) : result World unit :=
  run destructor (watcher cfg) (world cfg).

(** A program is asleep on the condition only as the rest of some method. *)
Definition sleeping (k : Prog value) : Prop :=
  exists (c : call) (s : PIDWatcher) (w : World),
    res (run (method c) s w) = Waiting k.

Definition well_formed (cfg : Config World) : Prop :=
  Forall sleeping (sleepers cfg).

(** As long as the exit flag is down nothing has been reaped, and nothing
    is ever reaped twice. *)
Definition reaped_once (cfg : Config World) : Prop :=
  (reaps (history cfg) <= 1)%nat /\
  (has_exited_ (watcher cfg) = false -> reaps (history cfg) = 0%nat).
End Threads.

Definition is_reset (a : action) : bool :=
  match a with Call c_reset => true | _ => false end.

(** A call that assigns a PID to a watcher that has none. *)
Definition is_assignment (a : action) : bool :=
  match a with Call (c_set_pid p) => 0 <? p | _ => false end.

(** ** A small concrete world

    The live children as a table from pid to the wait status each will
    report; [kill] finds the pid or fails, [waitpid] reaps it. *)
Definition children := list (pid_t * Z).

Fixpoint child_status (t : children) (pid : pid_t) : option Z :=
  match t with
  | [] => None
  | (p, st) :: t' => if p =? pid then Some st else child_status t' pid
  end.

Fixpoint child_remove (t : children) (pid : pid_t) : children :=
  match t with
  | [] => []
  | (p, st) :: t' => if p =? pid then t' else (p, st) :: child_remove t' pid
  end.

#[export] Instance table_os : OS children := {
  sys_kill t pid sig :=
    (match child_status t pid with Some _ => 0 | None => -1 end, t);
  sys_waitpid t pid := (child_status t pid, child_remove t pid)
}.

(** One live child, pid 5, that will exit with code 7. *)
Definition one_child : children := [(5, 1792)].

(** No child left. *)
Definition no_child : children := [].

(** Two threads are at work on a default-constructed watcher: one sleeps in
    [get_pid], then the other assigns pid 5. *)
Definition watching_5 : Config children :=
  exec (fresh PIDWatcher_new one_child) [Call c_get_pid; Call (c_set_pid 5)].

(** A thread sleeps in [wait] on a default-constructed watcher, which is
    then cleared. *)
Definition cleared : Config children :=
  exec (fresh PIDWatcher_new one_child) [Call c_wait; Call c_reset].

(** ** Vocabulary for the methods' further properties *)

(** The methods that begin with [ensure_pid()]: [get_pid], [wait] and,
    through [wait()], the three status accessors. *)
Definition needs_pid (c : call) : bool :=
  match c with
  | c_get_pid | c_wait | c_exitedProperly | c_getExitStatus | c_success => true
  | _ => false
  end.

Definition is_set_pid (a : action) : bool :=
  match a with Call (c_set_pid _) => true | _ => false end.

Definition is_setWaitExit (a : action) : bool :=
  match a with Call (c_setWaitExit _) => true | _ => false end.

(** Number of broadcasts in a history. *)
Definition is_notify (e : event) : bool :=
  match e with EvNotifyAll => true | _ => false end.
Definition notifies (h : list event) : nat := length (filter is_notify h).

(** [kill] and [waitpid] address one process only when the pid is positive;
    zero and negative pids name process groups or every process. *)
Definition single_process (e : event) : bool :=
  match e with
  | EvKill pid _ | EvWaitpid pid => 0 <? pid
  | _ => true
  end.

(** * Reasoning about atomic blocks *)

Ltac split_if :=
  match goal with
  | H : context [if ?b then _ else _] |- _ => destruct b eqn:?
  | |- context [if ?b then _ else _] => destruct b eqn:?
  | H : context [match ?o with Some _ => _ | None => _ end] |- _ => destruct o eqn:?
  | |- context [match ?o with Some _ => _ | None => _ end] => destruct o eqn:?
  end.

Ltac unfold_methods :=
  unfold method, set_pid, get_pid, wait, wait_, reset, terminate, running,
    getWaitExit, setWaitExit, exitedProperly, getExitStatus, success,
    destructor, ensure_pid, has_pid, get, modify, cond_wait, notifyAll,
    kill, waitpid, log_error, skip in *.

(** Symbolic execution of a method body: unfold it, evaluate [run] and split
    on every test it meets. *)
Ltac crunch := unfold_methods; cbn in *; repeat (split_if; cbn in *).

(** The same for the rest of a method that went to sleep: find out which
    method it was, then execute what is left of it. *)
Ltac wake_up H :=
  let c := fresh "c" in
  let s0 := fresh "s0" in
  let w0 := fresh "w0" in
  destruct H as (c & s0 & w0 & H);
  destruct c; crunch; try discriminate;
  injection H as <-; crunch.

(** Turn the recorded outcomes of boolean tests into arithmetic facts. *)
Ltac bools :=
  repeat match goal with
  | H : (_ && _) = true |- _ => apply andb_prop in H; destruct H
  | H : (_ && _) = false |- _ => apply andb_false_iff in H; destruct H
  | H : negb _ = true |- _ => apply negb_true_iff in H
  | H : negb _ = false |- _ => apply negb_false_iff in H
  | H : (_ =? _) = true |- _ => apply Z.eqb_eq in H
  | H : (_ =? _) = false |- _ => apply Z.eqb_neq in H
  | H : (_ <? _) = true |- _ => apply Z.ltb_lt in H
  | H : (_ <? _) = false |- _ => apply Z.ltb_ge in H
  end.

(** Replay in the goal the tests whose outcome is already known. *)
Ltac replay :=
  repeat match goal with
  | H : ?b = true |- context [?b] => rewrite H
  | H : ?b = false |- context [?b] => rewrite H
  end.

Ltac finish :=
  replay; bools; subst; try reflexivity; try discriminate; try lia; try congruence.

Lemma reaps_app (h1 h2 : list event) : reaps (h1 ++ h2) = (reaps h1 + reaps h2)%nat.
Proof. unfold reaps. now rewrite filter_app, length_app. Qed.

Lemma drop_nth_Forall {A : Type} (P : A -> Prop) (i : nat) (l : list A) :
  Forall P l -> Forall P (drop_nth i l).
Proof.
  intros H. revert i. induction H as [|x l Hx Hl IH]; intros [|i]; cbn; auto.
Qed.

Section Blocks.
Context {World : Type} {os : OS World}.
Implicit Types (s : PIDWatcher) (w : World) (c : call) (k : Prog value).

(** *** Methods called afresh *)

Lemma call_keeps_exited c s w :
  has_exited_ s = true -> has_exited_ (obj (run (method c) s w)) = true.
Proof.
  destruct s as [we p st he]; cbn; intros ->.
  destruct c; crunch; reflexivity.
Qed.

Lemma call_keeps_pid c s w :
  c <> c_reset -> assigned s = true ->
  pid_ (obj (run (method c) s w)) = pid_ s.
Proof.
  unfold assigned. destruct s as [we p st he]; cbn; intros Hc Hp.
  destruct c; crunch; finish.
Qed.

Lemma call_keeps_unassigned c s w :
  (forall p, c = c_set_pid p -> p <= 0) -> assigned s = false ->
  assigned (obj (run (method c) s w)) = false.
Proof.
  unfold assigned. destruct s as [we p st he]; cbn; intros Hc Hp.
  destruct c; crunch; finish.
  specialize (Hc pid eq_refl). lia.
Qed.

Lemma call_reaps c s w :
  (reaps (evs (run (method c) s w)) <= 1)%nat /\
  (has_exited_ s = true -> reaps (evs (run (method c) s w)) = 0%nat) /\
  (reaps (evs (run (method c) s w)) = 1%nat ->
   has_exited_ (obj (run (method c) s w)) = true).
Proof.
  destruct s as [we p st he].
  destruct c; crunch; unfold reaps; cbn; repeat split; try intros ?; finish.
Qed.

(** *** Methods resumed after the condition wait *)

Lemma sleeping_never_waits k s w :
  sleeping k -> forall k', res (run k s w) <> Waiting k'.
Proof. intros H k'. wake_up H; discriminate. Qed.

Lemma resume_keeps_exited k s w :
  sleeping k -> has_exited_ s = true -> has_exited_ (obj (run k s w)) = true.
Proof.
  destruct s as [we p st he]; cbn; intros H ->. wake_up H; reflexivity.
Qed.

Lemma resume_keeps_pid k s w :
  sleeping k -> pid_ (obj (run k s w)) = pid_ s.
Proof. destruct s as [we p st he]. intros H. wake_up H; reflexivity. Qed.

Lemma resume_reaps k s w :
  sleeping k ->
  (reaps (evs (run k s w)) <= 1)%nat /\
  (has_exited_ s = true -> reaps (evs (run k s w)) = 0%nat) /\
  (reaps (evs (run k s w)) = 1%nat -> has_exited_ (obj (run k s w)) = true).
Proof.
  destruct s as [we p st he]. intros H.
  wake_up H; unfold reaps; cbn; repeat split; try intros ?; finish.
Qed.

(** *** The destructor *)

Lemma destructor_keeps_exited s w :
  has_exited_ s = true -> has_exited_ (obj (run destructor s w)) = true.
Proof. destruct s as [we p st he]; cbn; intros ->. crunch; reflexivity. Qed.

Lemma destructor_reaps s w :
  (reaps (evs (run destructor s w)) <= 1)%nat /\
  (has_exited_ s = true -> reaps (evs (run destructor s w)) = 0%nat).
Proof.
  destruct s as [we p st he].
  crunch; unfold reaps; cbn; repeat split; try intros ?; finish.
Qed.

Lemma destructor_unassigned s w :
  assigned s = false -> run destructor s w = mkResult (Returned tt) s w [].
Proof.
  unfold assigned. destruct s as [we p st he]; cbn; intros Hp.
  crunch; finish.
Qed.
End Blocks.

(** * Invariants of interleaved executions *)

Section Interleavings.
Context {World : Type} {os : OS World}.
Implicit Types (cfg : Config World) (a : action) (acts : list action).

Lemma fresh_well_formed (s : PIDWatcher) (w : World) : well_formed (fresh s w).
Proof. constructor. Qed.

Lemma step_well_formed cfg a : well_formed cfg -> well_formed (step cfg a).
Proof.
  unfold well_formed. intros Hwf. destruct a as [c|i]; cbn.
  - destruct (res (run (method c) (watcher cfg) (world cfg))) as [v|e|k] eqn:E;
      cbn; auto.
    apply Forall_app; split; auto.
    constructor; [|constructor].
    now exists c, (watcher cfg), (world cfg).
  - destruct (nth_error (sleepers cfg) i) as [k|] eqn:E; auto.
    assert (Hk : sleeping k).
    { apply nth_error_In in E. rewrite Forall_forall in Hwf. auto. }
    pose proof (sleeping_never_waits k (watcher cfg) (world cfg) Hk) as Hnw.
    cbn. destruct (res (run k (watcher cfg) (world cfg))) as [v|e|k'];
      cbn; try now apply drop_nth_Forall.
    now destruct (Hnw k').
Qed.

Lemma exec_cons cfg a acts : exec cfg (a :: acts) = exec (step cfg a) acts.
Proof. reflexivity. Qed.

Lemma exec_well_formed acts : forall cfg, well_formed cfg -> well_formed (exec cfg acts).
Proof.
  induction acts as [|a acts IH]; intros cfg Hwf; [exact Hwf|].
  rewrite exec_cons. apply IH, step_well_formed, Hwf.
Qed.

(** Whoever is asleep in a well-formed configuration is the rest of a method. *)
Lemma sleeper_sleeping cfg i k :
  well_formed cfg -> nth_error (sleepers cfg) i = Some k -> sleeping k.
Proof.
  unfold well_formed. rewrite Forall_forall. intros Hwf E.
  eapply Hwf, nth_error_In, E.
Qed.

(** *** The exit flag *)

Lemma step_keeps_exited cfg a :
  well_formed cfg -> has_exited_ (watcher cfg) = true ->
  has_exited_ (watcher (step cfg a)) = true.
Proof.
  intros Hwf He. destruct a as [c|i]; cbn.
  - now apply call_keeps_exited.
  - destruct (nth_error (sleepers cfg) i) as [k|] eqn:E; auto.
    cbn. apply resume_keeps_exited; eauto using sleeper_sleeping.
Qed.

Lemma exec_keeps_exited acts : forall cfg,
  well_formed cfg -> has_exited_ (watcher cfg) = true ->
  has_exited_ (watcher (exec cfg acts)) = true.
Proof.
  induction acts as [|a acts IH]; intros cfg Hwf He; [exact He|].
  rewrite exec_cons. apply IH; auto using step_well_formed, step_keeps_exited.
Qed.

(** *** The stored pid *)

Lemma step_keeps_pid cfg a :
  well_formed cfg -> is_reset a = false -> assigned (watcher cfg) = true ->
  pid_ (watcher (step cfg a)) = pid_ (watcher cfg).
Proof.
  intros Hwf Ha Hp. destruct a as [c|i]; cbn.
  - apply call_keeps_pid; auto. intros ->. discriminate.
  - destruct (nth_error (sleepers cfg) i) as [k|] eqn:E; auto.
    cbn. apply resume_keeps_pid; eauto using sleeper_sleeping.
Qed.

Lemma exec_keeps_pid acts : forall cfg,
  well_formed cfg -> forallb (fun a => negb (is_reset a)) acts = true ->
  assigned (watcher cfg) = true ->
  pid_ (watcher (exec cfg acts)) = pid_ (watcher cfg).
Proof.
  induction acts as [|a acts IH]; intros cfg Hwf Ha Hp; [reflexivity|].
  cbn [forallb] in Ha. apply andb_prop in Ha. destruct Ha as [Ha Hacts].
  apply negb_true_iff in Ha.
  pose proof (step_keeps_pid cfg a Hwf Ha Hp) as E.
  rewrite exec_cons, IH; auto using step_well_formed.
  unfold assigned in *. now rewrite E.
Qed.

Lemma step_keeps_unassigned cfg a :
  well_formed cfg -> is_assignment a = false -> assigned (watcher cfg) = false ->
  assigned (watcher (step cfg a)) = false.
Proof.
  intros Hwf Ha Hp. destruct a as [c|i]; cbn.
  - apply call_keeps_unassigned; auto.
    intros p ->. cbn in Ha. now apply Z.ltb_ge.
  - destruct (nth_error (sleepers cfg) i) as [k|] eqn:E; auto.
    cbn. unfold assigned in *.
    rewrite resume_keeps_pid; eauto using sleeper_sleeping.
Qed.

Lemma exec_keeps_unassigned acts : forall cfg,
  well_formed cfg -> forallb (fun a => negb (is_assignment a)) acts = true ->
  assigned (watcher cfg) = false ->
  assigned (watcher (exec cfg acts)) = false.
Proof.
  induction acts as [|a acts IH]; intros cfg Hwf Ha Hp; [exact Hp|].
  cbn [forallb] in Ha. apply andb_prop in Ha. destruct Ha as [Ha Hacts].
  apply negb_true_iff in Ha.
  rewrite exec_cons. apply IH; auto using step_well_formed, step_keeps_unassigned.
Qed.

(** *** Reaping *)

Lemma commit_reaped_once cfg (r : result World value) q :
  reaped_once cfg ->
  (reaps (evs r) <= 1)%nat ->
  (has_exited_ (watcher cfg) = true -> reaps (evs r) = 0%nat) ->
  (reaps (evs r) = 1%nat -> has_exited_ (obj r) = true) ->
  (has_exited_ (watcher cfg) = true -> has_exited_ (obj r) = true) ->
  reaped_once (commit r q (history cfg)).
Proof.
  unfold reaped_once, commit. intros [H1 H0] Hle Hex Hone Hmono.
  cbn [history watcher]. rewrite reaps_app.
  destruct (has_exited_ (watcher cfg)) eqn:E.
  - rewrite (Hex eq_refl), (Hmono eq_refl). split; [lia | discriminate].
  - rewrite (H0 eq_refl). split; [lia|].
    intros Hf. destruct (reaps (evs r)) as [|[|n]]; auto; try lia.
    rewrite (Hone eq_refl) in Hf. discriminate.
Qed.

Lemma step_reaped_once cfg a :
  well_formed cfg -> reaped_once cfg -> reaped_once (step cfg a).
Proof.
  intros Hwf Hinv. destruct a as [c|i]; cbn.
  - destruct (call_reaps c (watcher cfg) (world cfg)) as (H1 & H2 & H3).
    apply commit_reaped_once; auto using call_keeps_exited.
  - destruct (nth_error (sleepers cfg) i) as [k|] eqn:E; auto.
    assert (Hk : sleeping k) by eauto using sleeper_sleeping.
    destruct (resume_reaps k (watcher cfg) (world cfg) Hk) as (H1 & H2 & H3).
    apply commit_reaped_once; auto using resume_keeps_exited.
Qed.

Lemma exec_reaped_once acts : forall cfg,
  well_formed cfg -> reaped_once cfg -> reaped_once (exec cfg acts).
Proof.
  induction acts as [|a acts IH]; intros cfg Hwf Hinv; [exact Hinv|].
  rewrite exec_cons. apply IH; auto using step_well_formed, step_reaped_once.
Qed.
End Interleavings.

(** * The specification's claims *)

Section Claims.
Context {World : Type} {os : OS World}.
Implicit Types (s : PIDWatcher) (w : World) (cfg : Config World).

(** C1, amended.  In every interleaving that contains no [reset], a watcher
    that has a PID keeps exactly that pid: [set_pid] with another value
    throws, and nothing else writes [pid_].  [reset] is the one operation
    that discards it, storing 0. *)
Theorem pid_stable_without_reset cfg (acts : list action) :
  well_formed cfg ->
  assigned (watcher cfg) = true ->
  forallb (fun a => negb (is_reset a)) acts = true ->
  pid_ (watcher (exec cfg acts)) = pid_ (watcher cfg) /\
  pid_ (watcher (step (exec cfg acts) (Call c_reset))) = 0.
Proof.
  intros Hwf Hp Hacts. split.
  - now apply exec_keeps_pid.
  - now destruct (watcher (exec cfg acts)).
Qed.

(** C2, amended.  Assigning again the pid the watcher already has succeeds
    and leaves every field as it was, and [notifyAll] is called once more. *)
Theorem set_pid_same_pid s w (p : pid_t) :
  assigned s = true -> pid_ s = p ->
  run (set_pid p) s w = mkResult (Returned tt) s w [EvNotifyAll].
Proof.
  unfold assigned. destruct s as [we p0 st he]; cbn. intros Hp <-.
  crunch; finish.
Qed.

(** C3, amended.  On a watcher that has pid [p], [set_pid q] with [q <> p]
    throws and changes nothing, so the watcher still reports [p]; the error
    is "already watching" when [q] is positive and "invalid PID" otherwise,
    because the identifier is checked first. *)
Theorem set_pid_other_pid s w (q : pid_t) :
  assigned s = true -> q <> pid_ s ->
  run (set_pid q) s w =
    mkResult (Thrown (if 0 <? q then already_watching else invalid_PID q)) s w [] /\
  run get_pid s w = mkResult (Returned (pid_ s)) s w [] /\
  run has_pid s w = mkResult (Returned true) s w [].
Proof.
  unfold assigned. destruct s as [we p st he]; cbn. intros Hp Hq.
  repeat split; crunch; finish.
Qed.

(** C4, amended.  [set_pid p] with [p <= 0] throws "invalid PID" whatever
    the state, stores nothing and notifies nobody: the watcher is exactly
    as before, unassigned if it was unassigned and assigned if it was. *)
Theorem set_pid_rejects_nonpositive s w (p : pid_t) :
  p <= 0 ->
  run (set_pid p) s w = mkResult (Thrown (invalid_PID p)) s w [].
Proof. intros Hp. crunch; finish. Qed.

(** C5.  Once [has_exited_] is true it stays true through every method
    call and every resumed wait, in any interleaving, and through the
    destructor. *)
Theorem has_exited_monotonic cfg (acts : list action) :
  well_formed cfg ->
  has_exited_ (watcher cfg) = true ->
  has_exited_ (watcher (exec cfg acts)) = true /\
  has_exited_ (obj (destroy (exec cfg acts))) = true.
Proof.
  intros Hwf He.
  assert (H : has_exited_ (watcher (exec cfg acts)) = true)
    by now apply exec_keeps_exited.
  split; [exact H | now apply destructor_keeps_exited].
Qed.

(** C6, amended.  On a watcher that has exited and has a PID, [wait]
    returns at once, reaps nothing and leaves [status_] (and everything
    else) unchanged.  And over the whole life of a watcher, from its
    construction through any interleaving to its destruction, [waitpid]
    is called at most once. *)
Theorem wait_idempotent_once_exited s w s0 w0 (acts : list action) :
  has_exited_ s = true -> assigned s = true ->
  run wait s w = mkResult (Returned tt) s w [] /\
  (reaps (history (exec (fresh s0 w0) acts)) +
   reaps (evs (destroy (exec (fresh s0 w0) acts))) <= 1)%nat.
Proof.
  intros He Hp. split.
  - unfold assigned in Hp. destruct s as [we p st he]; cbn in *; subst he.
    crunch; finish.
  - assert (Hinv : reaped_once (exec (fresh s0 w0) acts)).
    { apply exec_reaped_once; [apply fresh_well_formed|].
      split; cbn; auto. }
    destruct Hinv as [H1 H0].
    destruct (destructor_reaps (watcher (exec (fresh s0 w0) acts))
                (world (exec (fresh s0 w0) acts))) as [D1 D0].
    unfold destroy.
    destruct (has_exited_ (watcher (exec (fresh s0 w0) acts))) eqn:E.
    + rewrite (D0 eq_refl). lia.
    + rewrite (H0 eq_refl). lia.
Qed.

(** C7, amended.  On a watcher without a PID, [running] neither waits on
    the condition nor probes the OS nor changes anything; it answers
    [!has_exited_]: true for a watcher never marked as exited, false after
    [reset]. *)
Theorem running_without_pid s w :
  assigned s = false ->
  run running s w = mkResult (Returned (negb (has_exited_ s))) s w [].
Proof.
  unfold assigned. destruct s as [we p st he]; cbn. intros Hp.
  crunch; finish.
Qed.

(** C8.  After [reset], as long as no later call assigns a PID, the
    watcher has no PID, so the destructor skips [wait()]: it returns at
    once and does nothing, whatever [wait_exit_] says and whatever pid the
    watcher had before. *)
Theorem destructor_after_reset_never_waits cfg (acts : list action) :
  well_formed cfg ->
  forallb (fun a => negb (is_assignment a)) acts = true ->
  assigned (watcher (exec (step cfg (Call c_reset)) acts)) = false /\
  destroy (exec (step cfg (Call c_reset)) acts) =
    mkResult (Returned tt)
             (watcher (exec (step cfg (Call c_reset)) acts))
             (world (exec (step cfg (Call c_reset)) acts)) [].
Proof.
  intros Hwf Hacts.
  assert (H : assigned (watcher (exec (step cfg (Call c_reset)) acts)) = false).
  { apply exec_keeps_unassigned; auto using step_well_formed. }
  split; [exact H | now apply destructor_unassigned].
Qed.

(** C9.  [reset] followed by [set_pid p] with a positive [p]: the
    assignment succeeds and the watcher has pid [p], but [has_exited_] is
    still true and [status_] still 0; [running] answers false without
    probing and [wait] returns at once without reaping. *)
Theorem set_pid_after_reset_stays_exited s w (p : pid_t) :
  0 < p ->
  obj (run reset s w) = mkPIDWatcher (wait_exit_ s) 0 0 true /\
  run (set_pid p) (obj (run reset s w)) (env (run reset s w)) =
    mkResult (Returned tt) (mkPIDWatcher (wait_exit_ s) p 0 true) w [EvNotifyAll] /\
  run running (mkPIDWatcher (wait_exit_ s) p 0 true) w =
    mkResult (Returned false) (mkPIDWatcher (wait_exit_ s) p 0 true) w [] /\
  run wait (mkPIDWatcher (wait_exit_ s) p 0 true) w =
    mkResult (Returned tt) (mkPIDWatcher (wait_exit_ s) p 0 true) w [].
Proof.
  intros Hp. destruct s as [we p0 st he].
  repeat split; crunch; finish.
Qed.

(** C10.  The constructor taking a pid stores it unchecked.  With
    [p <= 0] the watcher has no PID as far as [has_pid] is concerned, and
    every method then does on it what it does on a default-constructed
    watcher: same result or same sleep, same events, same world, and the
    same fields except that a [pid_] left untouched is [p] instead of 0.
    The destructor does not wait either. *)
Theorem PIDWatcher_of_nonpositive (p : pid_t) :
  p <= 0 ->
  pid_ (PIDWatcher_of p) = p /\
  (forall w, run has_pid (PIDWatcher_of p) w =
             mkResult (Returned false) (PIDWatcher_of p) w []) /\
  (forall c w,
     res (run (method c) (PIDWatcher_of p) w) = res (run (method c) PIDWatcher_new w) /\
     evs (run (method c) (PIDWatcher_of p) w) = evs (run (method c) PIDWatcher_new w) /\
     env (run (method c) (PIDWatcher_of p) w) = env (run (method c) PIDWatcher_new w) /\
     (obj (run (method c) (PIDWatcher_of p) w) = obj (run (method c) PIDWatcher_new w) \/
      obj (run (method c) (PIDWatcher_of p) w) =
        with_pid_ p (obj (run (method c) PIDWatcher_new w)))) /\
  (forall w, run destructor (PIDWatcher_of p) w =
             mkResult (Returned tt) (PIDWatcher_of p) w []).
Proof.
  intros Hp.
  assert (Hb : (0 <? p) = false) by (apply Z.ltb_ge; exact Hp).
  split; [reflexivity|]. split; [|split].
  - intros w. unfold PIDWatcher_of. crunch; finish.
  - intros c w. unfold PIDWatcher_of, PIDWatcher_new.
    destruct c; crunch; repeat split; finish; auto.
  - intros w. unfold PIDWatcher_of. crunch; finish.
Qed.
End Claims.

(** * The claims on concrete watchers *)

(** A child that exits with code 7 is reaped once; later calls reuse the
    stored status. *)
Example lifecycle_exit_code_7 :
  run getExitStatus (PIDWatcher_of 5) one_child =
    mkResult (Returned 7) (mkPIDWatcher true 5 1792 true) no_child [EvWaitpid 5] /\
  run success (mkPIDWatcher true 5 1792 true) no_child =
    mkResult (Returned false) (mkPIDWatcher true 5 1792 true) no_child [].
Proof. split; reflexivity. Qed.

(** The liveness probe marks a vanished process as exited without reaping. *)
Example probe_of_missing_process :
  run running (PIDWatcher_of 6) one_child =
    mkResult (Returned false) (mkPIDWatcher true 6 0 true) one_child [EvKill 6 0].
Proof. reflexivity. Qed.

Lemma watching_5_well_formed : well_formed watching_5.
Proof.
  constructor; [|constructor].
  exists c_get_pid, PIDWatcher_new, one_child. reflexivity.
Defined.

Lemma cleared_well_formed : well_formed cleared.
Proof.
  constructor; [|constructor].
  exists c_wait, PIDWatcher_new, one_child. reflexivity.
Defined.

(** C1 as stated fails: a watcher that was assigned pid 5 holds 0 after
    [reset], and can then be assigned 7. *)
Lemma reset_discards_assigned_pid :
  pid_ (watcher (exec (fresh PIDWatcher_new one_child)
                   [Call (c_set_pid 5)])) = 5 /\
  pid_ (watcher (exec (fresh PIDWatcher_new one_child)
                   [Call (c_set_pid 5); Call c_reset])) = 0 /\
  pid_ (watcher (exec (fresh PIDWatcher_new one_child)
                   [Call (c_set_pid 5); Call c_reset; Call (c_set_pid 7)])) = 7.
Proof. repeat split. Qed.

Lemma pid_stable_without_reset_witness :
  well_formed watching_5 /\
  assigned (watcher watching_5) = true /\
  pid_ (watcher (exec watching_5
     [Wake 0%nat; Call (c_set_pid 5); Call (c_set_pid 9); Call c_running;
      Call c_terminate; Call c_wait; Call c_getExitStatus])) = 5 /\
  pid_ (watcher (step (exec watching_5
     [Wake 0%nat; Call (c_set_pid 5); Call (c_set_pid 9); Call c_running;
      Call c_terminate; Call c_wait; Call c_getExitStatus]) (Call c_reset))) = 0.
Proof.
  split; [exact watching_5_well_formed|]. split; [reflexivity|].
  exact (pid_stable_without_reset watching_5
           [Wake 0%nat; Call (c_set_pid 5); Call (c_set_pid 9); Call c_running;
            Call c_terminate; Call c_wait; Call c_getExitStatus]
           watching_5_well_formed eq_refl eq_refl).
Defined.

(** C2 as stated fails: the second [set_pid 5] broadcasts again. *)
Lemma same_pid_notifies_again :
  obj (run (set_pid 5) PIDWatcher_new one_child) = PIDWatcher_of 5 /\
  evs (run (set_pid 5) (PIDWatcher_of 5) one_child) = [EvNotifyAll] /\
  evs (run (set_pid 5) (PIDWatcher_of 5) one_child) <> [].
Proof. repeat split. discriminate. Qed.

Lemma set_pid_same_pid_witness :
  assigned (PIDWatcher_of 5) = true /\
  run (set_pid 5) (PIDWatcher_of 5) one_child =
    mkResult (Returned tt) (PIDWatcher_of 5) one_child [EvNotifyAll].
Proof.
  split; [reflexivity|].
  exact (set_pid_same_pid (PIDWatcher_of 5) one_child 5 eq_refl eq_refl).
Defined.

(** C3 as stated fails: on a watcher that has pid 5, [set_pid 0] (and 0 is
    not 5) throws "invalid PID", not "already watching". *)
Lemma set_pid_zero_on_assigned_is_invalid :
  assigned (PIDWatcher_of 5) = true /\
  res (run (set_pid 0) (PIDWatcher_of 5) one_child) = Thrown (invalid_PID 0) /\
  res (run (set_pid 0) (PIDWatcher_of 5) one_child) <> Thrown already_watching.
Proof. repeat split. discriminate. Qed.

Lemma set_pid_other_pid_witness :
  assigned (PIDWatcher_of 5) = true /\ 9 <> 5 /\
  run (set_pid 9) (PIDWatcher_of 5) one_child =
    mkResult (Thrown already_watching) (PIDWatcher_of 5) one_child [] /\
  run get_pid (PIDWatcher_of 5) one_child =
    mkResult (Returned 5) (PIDWatcher_of 5) one_child [] /\
  run has_pid (PIDWatcher_of 5) one_child =
    mkResult (Returned true) (PIDWatcher_of 5) one_child [].
Proof.
  split; [reflexivity|]. split; [discriminate|].
  apply (set_pid_other_pid (PIDWatcher_of 5) one_child 9); [reflexivity|discriminate].
Defined.

(** C4 as stated fails: after the rejected [set_pid 0] a watcher that had
    pid 5 still has it, so it is not left unassigned. *)
Lemma set_pid_invalid_keeps_assigned :
  res (run (set_pid 0) (PIDWatcher_of 5) one_child) = Thrown (invalid_PID 0) /\
  assigned (obj (run (set_pid 0) (PIDWatcher_of 5) one_child)) = true /\
  pid_ (obj (run (set_pid 0) (PIDWatcher_of 5) one_child)) = 5.
Proof. repeat split. Qed.

Lemma set_pid_rejects_nonpositive_witness :
  -1 <= 0 /\
  run (set_pid (-1)) PIDWatcher_new one_child =
    mkResult (Thrown (invalid_PID (-1))) PIDWatcher_new one_child [].
Proof.
  split; [lia|].
  apply (set_pid_rejects_nonpositive PIDWatcher_new one_child (-1)). lia.
Defined.

Lemma has_exited_monotonic_witness :
  well_formed cleared /\
  has_exited_ (watcher cleared) = true /\
  has_exited_ (watcher (exec cleared
     [Call (c_set_pid 5); Wake 0%nat; Call c_running; Call c_success;
      Call (c_setWaitExit true); Call c_get_pid])) = true /\
  has_exited_ (obj (destroy (exec cleared
     [Call (c_set_pid 5); Wake 0%nat; Call c_running; Call c_success;
      Call (c_setWaitExit true); Call c_get_pid]))) = true.
Proof.
  split; [exact cleared_well_formed|]. split; [reflexivity|].
  exact (has_exited_monotonic cleared
           [Call (c_set_pid 5); Wake 0%nat; Call c_running; Call c_success;
            Call (c_setWaitExit true); Call c_get_pid]
           cleared_well_formed eq_refl).
Defined.

(** C6 as stated fails: a cleared watcher has exited, yet [wait] on it goes
    to sleep on the condition instead of returning. *)
Lemma wait_sleeps_on_cleared_watcher :
  has_exited_ (obj (run reset PIDWatcher_new one_child)) = true /\
  evs (run wait (obj (run reset PIDWatcher_new one_child)) one_child) = [EvCondWait] /\
  res (run wait (obj (run reset PIDWatcher_new one_child)) one_child) <> Returned tt.
Proof. repeat split. discriminate. Qed.

Lemma wait_idempotent_once_exited_witness :
  has_exited_ (mkPIDWatcher true 5 1792 true) = true /\
  assigned (mkPIDWatcher true 5 1792 true) = true /\
  run wait (mkPIDWatcher true 5 1792 true) no_child =
    mkResult (Returned tt) (mkPIDWatcher true 5 1792 true) no_child [] /\
  (reaps (history (exec (fresh (PIDWatcher_of 5%Z) one_child)
                     [Call c_wait; Call c_wait; Call c_getExitStatus])) +
   reaps (evs (destroy (exec (fresh (PIDWatcher_of 5%Z) one_child)
                     [Call c_wait; Call c_wait; Call c_getExitStatus]))) <= 1)%nat.
Proof.
  split; [reflexivity|]. split; [reflexivity|].
  exact (wait_idempotent_once_exited (mkPIDWatcher true 5 1792 true) no_child
           (PIDWatcher_of 5) one_child
           [Call c_wait; Call c_wait; Call c_getExitStatus] eq_refl eq_refl).
Defined.

(** C7 as stated fails: a cleared watcher has no PID and [running] answers
    false. *)
Lemma running_false_on_cleared_watcher :
  assigned (obj (run reset PIDWatcher_new one_child)) = false /\
  res (run running (obj (run reset PIDWatcher_new one_child)) one_child) =
    Returned false.
Proof. repeat split. Qed.

Lemma running_without_pid_witness :
  assigned PIDWatcher_new = false /\
  run running PIDWatcher_new one_child =
    mkResult (Returned true) PIDWatcher_new one_child [].
Proof.
  split; [reflexivity|].
  exact (running_without_pid PIDWatcher_new one_child eq_refl).
Defined.

Lemma destructor_after_reset_never_waits_witness :
  well_formed watching_5 /\
  wait_exit_ (watcher (exec (step watching_5 (Call c_reset))
                         [Call c_running; Call (c_set_pid 0); Wake 0%nat])) = true /\
  assigned (watcher (exec (step watching_5 (Call c_reset))
                       [Call c_running; Call (c_set_pid 0); Wake 0%nat])) = false /\
  destroy (exec (step watching_5 (Call c_reset))
             [Call c_running; Call (c_set_pid 0); Wake 0%nat]) =
    mkResult (Returned tt) (mkPIDWatcher true 0 0 true) one_child [].
Proof.
  split; [exact watching_5_well_formed|]. split; [reflexivity|].
  exact (destructor_after_reset_never_waits watching_5
           [Call c_running; Call (c_set_pid 0); Wake 0%nat]
           watching_5_well_formed eq_refl).
Defined.

Lemma set_pid_after_reset_stays_exited_witness :
  0 < 7 /\
  obj (run reset (PIDWatcher_of 5) one_child) = mkPIDWatcher true 0 0 true /\
  run (set_pid 7) (obj (run reset (PIDWatcher_of 5) one_child))
      (env (run reset (PIDWatcher_of 5) one_child)) =
    mkResult (Returned tt) (mkPIDWatcher true 7 0 true) one_child [EvNotifyAll] /\
  run running (mkPIDWatcher true 7 0 true) one_child =
    mkResult (Returned false) (mkPIDWatcher true 7 0 true) one_child [] /\
  run wait (mkPIDWatcher true 7 0 true) one_child =
    mkResult (Returned tt) (mkPIDWatcher true 7 0 true) one_child [].
Proof.
  split; [lia|].
  apply (set_pid_after_reset_stays_exited (PIDWatcher_of 5) one_child 7). lia.
Defined.

Lemma PIDWatcher_of_nonpositive_witness :
  -3 <= 0 /\
  pid_ (PIDWatcher_of (-3)) = -3 /\
  run has_pid (PIDWatcher_of (-3)) one_child =
    mkResult (Returned false) (PIDWatcher_of (-3)) one_child [] /\
  res (run (method c_running) (PIDWatcher_of (-3)) one_child) = Returned (v_bool true) /\
  run destructor (PIDWatcher_of (-3)) one_child =
    mkResult (Returned tt) (PIDWatcher_of (-3)) one_child [].
Proof.
  assert (H : -3 <= 0) by lia.
  destruct (PIDWatcher_of_nonpositive (World := children) (-3) H) as (H1 & H2 & H3 & H4).
  split; [exact H|]. split; [exact H1|]. split; [apply H2|].
  split; [|apply H4].
  destruct (H3 c_running one_child) as (E & _). rewrite E. reflexivity.
Defined.

(** * Further properties of the methods *)

Lemma notifies_app (h1 h2 : list event) :
  notifies (h1 ++ h2) = (notifies h1 + notifies h2)%nat.
Proof. unfold notifies. now rewrite filter_app, length_app. Qed.

Section Methods.
Context {World : Type} {os : OS World}.
Implicit Types (s : PIDWatcher) (w : World) (c : call) (k : Prog value).

(** X1.  The first [set_pid p] (with [p] positive) on a watcher without a
    PID stores [p], leaves the other fields alone and broadcasts once; from
    then on [get_pid] returns [p] at once. *)
Theorem first_set_pid_then_get_pid s w (p : pid_t) :
  0 < p -> assigned s = false ->
  run (set_pid p) s w = mkResult (Returned tt) (with_pid_ p s) w [EvNotifyAll] /\
  run get_pid (with_pid_ p s) w = mkResult (Returned p) (with_pid_ p s) w [].
Proof.
  unfold assigned. destruct s as [we p0 st he]; cbn. intros Hp Hs.
  split; crunch; finish.
Qed.

(** X2.  [get_pid] on a watcher without a PID goes to sleep on the
    condition, changing nothing.  When the thread is woken it returns the
    [pid_] stored at that moment, whatever it is: [ensure_pid] does not
    test again. *)
Theorem get_pid_sleeps_without_pid s w :
  assigned s = false ->
  exists k : Prog pid_t,
    run get_pid s w = mkResult (Waiting k) s w [EvCondWait] /\
    forall s' w', run k s' w' = mkResult (Returned (pid_ s')) s' w' [].
Proof.
  unfold assigned. destruct s as [we p0 st he]; cbn. intros Hs.
  eexists. split.
  - crunch; finish.
  - reflexivity.
Qed.

(** X3.  [terminate] never changes a field, never throws, sleeps, reaps or
    broadcasts.  It sends SIGTERM to [pid_] exactly when a PID is there and
    the watcher is not marked as exited, and logs exactly when that [kill]
    fails; otherwise it does nothing at all. *)
Theorem terminate_effect s w :
  obj (run terminate s w) = s /\
  res (run terminate s w) = Returned tt /\
  evs (run terminate s w) =
    (if assigned s && negb (has_exited_ s)
     then EvKill (pid_ s) SIGTERM ::
          (if fst (sys_kill w (pid_ s) SIGTERM) =? 0 then [] else [EvLog])
     else []).
Proof.
  unfold assigned. destruct s as [we p st he].
  repeat split; crunch; finish.
Qed.

(** X4.  [wait] on a watcher that has a PID and is not marked as exited
    calls [waitpid] on that pid once and returns with [has_exited_] set.
    [status_] receives the reaped status; when [waitpid] fails the watcher is
    marked as exited all the same and [status_] keeps its old value. *)
Theorem wait_reaps_running_child s w :
  assigned s = true -> has_exited_ s = false ->
  run wait s w =
    mkResult (Returned tt)
      (mkPIDWatcher (wait_exit_ s) (pid_ s)
         (match fst (sys_waitpid w (pid_ s)) with
          | Some st => st
          | None => status_ s
          end) true)
      (snd (sys_waitpid w (pid_ s))) [EvWaitpid (pid_ s)].
Proof.
  unfold assigned. destruct s as [we p st he]; cbn. intros Hp ->.
  crunch; finish.
Qed.

(** X5.  [wait] on a watcher without a PID goes to sleep; what runs after
    the wake-up is [wait_].  If there is still no PID then (a wake-up that
    no assignment caused), [wait_] reaps nothing and marks the watcher as
    exited. *)
Theorem wait_woken_without_pid s w :
  assigned s = false ->
  exists k : Prog unit,
    run wait s w = mkResult (Waiting k) s w [EvCondWait] /\
    (forall s' w', run k s' w' = run wait_ s' w') /\
    (forall s' w', assigned s' = false ->
       run k s' w' = mkResult (Returned tt) (with_has_exited_ true s') w' []).
Proof.
  unfold assigned. destruct s as [we p0 st he]; cbn. intros Hs.
  eexists. split; [|split].
  - crunch; finish.
  - reflexivity.
  - intros [we' p' st' he'] w'; cbn. intros Hs'. crunch; finish.
Qed.

(** X6.  [running] touches nothing but [has_exited_]: [pid_], [status_] and
    [wait_exit_] stay, it never throws, sleeps, reaps, broadcasts or logs,
    and it issues at most the one probe [kill(pid_, 0)].  Its answer is the
    negation of the flag it leaves behind. *)
Theorem running_frame s w :
  res (run running s w) = Returned (negb (has_exited_ (obj (run running s w)))) /\
  obj (run running s w) = with_has_exited_ (has_exited_ (obj (run running s w))) s /\
  (evs (run running s w) = [] \/ evs (run running s w) = [EvKill (pid_ s) 0]).
Proof.
  destruct s as [we p st he].
  repeat split; crunch; finish; auto.
Qed.

(** X8.  When the probe of [running] finds the process gone, the watcher is
    marked as exited without a reap, and a later [wait] returns at once
    without calling [waitpid]: the child's status is never collected and
    [status_] keeps the value it had. *)
Theorem probe_then_wait_never_reaps s w :
  assigned s = true -> has_exited_ s = false ->
  fst (sys_kill w (pid_ s) 0) <> 0 ->
  run running s w =
    mkResult (Returned false) (with_has_exited_ true s)
             (snd (sys_kill w (pid_ s) 0)) [EvKill (pid_ s) 0] /\
  forall w', run wait (with_has_exited_ true s) w' =
             mkResult (Returned tt) (with_has_exited_ true s) w' [].
Proof.
  unfold assigned. destruct s as [we p st he]; cbn. intros Hp -> Hk.
  apply Z.eqb_neq in Hk.
  split; [|intros w']; crunch; finish.
Qed.

End Methods.

Section MoreBlocks.
Context {World : Type} {os : OS World}.
Implicit Types (s : PIDWatcher) (w : World) (c : call) (k : Prog value).

(** What one atomic block leaves alone: [wait_exit_] unless the block is
    [setWaitExit], [status_] unless it reaps or is [reset]; it broadcasts
    only in [set_pid], and its system calls name a positive pid. *)
Lemma call_frame c s w :
  ((forall b, c <> c_setWaitExit b) ->
   wait_exit_ (obj (run (method c) s w)) = wait_exit_ s) /\
  (c <> c_reset -> reaps (evs (run (method c) s w)) = 0%nat ->
   status_ (obj (run (method c) s w)) = status_ s) /\
  ((forall p, c <> c_set_pid p) ->
   notifies (evs (run (method c) s w)) = 0%nat) /\
  forallb single_process (evs (run (method c) s w)) = true.
Proof.
  destruct s as [we p st he].
  destruct c; crunch; unfold reaps, notifies; cbn;
    repeat split; try intros ?; try intros ?; finish;
    exfalso; match goal with H : forall _, _ <> _ |- _ => eapply H; reflexivity end.
Qed.

Lemma resume_frame k s w :
  sleeping k ->
  wait_exit_ (obj (run k s w)) = wait_exit_ s /\
  (reaps (evs (run k s w)) = 0%nat -> status_ (obj (run k s w)) = status_ s) /\
  notifies (evs (run k s w)) = 0%nat /\
  forallb single_process (evs (run k s w)) = true.
Proof.
  destruct s as [we p st he]. intros H.
  wake_up H; unfold reaps, notifies; cbn;
    repeat split; try intros ?; finish.
Qed.

Lemma destructor_single_process s w :
  forallb single_process (evs (run destructor s w)) = true.
Proof. destruct s as [we p st he]. crunch; finish. Qed.

Lemma running_once_exited s w :
  has_exited_ s = true -> run running s w = mkResult (Returned false) s w [].
Proof. destruct s as [we p st he]; cbn; intros ->. crunch; finish. Qed.
End MoreBlocks.

Section MoreInterleavings.
Context {World : Type} {os : OS World}.
Implicit Types (s : PIDWatcher) (w : World) (cfg : Config World).

Lemma step_reaps_grow cfg a :
  (reaps (history cfg) <= reaps (history (step cfg a)))%nat.
Proof.
  destruct a as [c|i]; unfold step.
  - unfold commit; cbn [history]. rewrite reaps_app. lia.
  - destruct (nth_error (sleepers cfg) i); unfold commit; cbn [history];
      [rewrite reaps_app|]; lia.
Qed.

Lemma exec_reaps_grow acts : forall cfg,
  (reaps (history cfg) <= reaps (history (exec cfg acts)))%nat.
Proof.
  induction acts as [|a acts IH]; intros cfg; [apply Nat.le_refl|].
  rewrite exec_cons. etransitivity; [apply step_reaps_grow | apply IH].
Qed.

Lemma step_keeps_status cfg a :
  well_formed cfg -> is_reset a = false ->
  reaps (history (step cfg a)) = reaps (history cfg) ->
  status_ (watcher (step cfg a)) = status_ (watcher cfg).
Proof.
  intros Hwf Ha. destruct a as [c|i]; unfold step.
  - unfold commit; cbn [history watcher]. rewrite reaps_app. intros Hr.
    apply (call_frame c (watcher cfg) (world cfg)); [|lia].
    intros ->. discriminate.
  - destruct (nth_error (sleepers cfg) i) as [k|] eqn:E; auto.
    unfold commit; cbn [history watcher]. rewrite reaps_app. intros Hr.
    apply (resume_frame k (watcher cfg) (world cfg));
      [eauto using sleeper_sleeping | lia].
Qed.

Lemma step_keeps_wait_exit cfg a :
  well_formed cfg -> is_setWaitExit a = false ->
  wait_exit_ (watcher (step cfg a)) = wait_exit_ (watcher cfg).
Proof.
  intros Hwf Ha. destruct a as [c|i]; cbn.
  - apply (call_frame c (watcher cfg) (world cfg)).
    intros b ->. discriminate.
  - destruct (nth_error (sleepers cfg) i) as [k|] eqn:E; auto.
    cbn. apply (resume_frame k (watcher cfg) (world cfg)).
    eauto using sleeper_sleeping.
Qed.

Lemma step_notifies cfg a :
  well_formed cfg -> is_set_pid a = false ->
  notifies (history (step cfg a)) = notifies (history cfg).
Proof.
  intros Hwf Ha. destruct a as [c|i]; unfold step.
  - unfold commit; cbn [history]. rewrite notifies_app.
    destruct (call_frame c (watcher cfg) (world cfg)) as (_ & _ & Hn & _).
    rewrite Hn; [lia|]. intros p ->. discriminate.
  - destruct (nth_error (sleepers cfg) i) as [k|] eqn:E; auto.
    unfold commit; cbn [history]. rewrite notifies_app.
    destruct (resume_frame k (watcher cfg) (world cfg)) as (_ & _ & Hn & _);
      [eauto using sleeper_sleeping|].
    rewrite Hn. lia.
Qed.

Lemma step_single_process cfg a :
  well_formed cfg ->
  forallb single_process (history cfg) = true ->
  forallb single_process (history (step cfg a)) = true.
Proof.
  intros Hwf Hh. destruct a as [c|i]; unfold step.
  - unfold commit; cbn [history]. rewrite forallb_app, Hh. apply (call_frame c (watcher cfg) (world cfg)).
  - destruct (nth_error (sleepers cfg) i) as [k|] eqn:E; auto.
    unfold commit; cbn [history]. rewrite forallb_app, Hh.
    apply (resume_frame k (watcher cfg) (world cfg)).
    eauto using sleeper_sleeping.
Qed.

Lemma exec_single_process acts : forall cfg,
  well_formed cfg ->
  forallb single_process (history cfg) = true ->
  forallb single_process (history (exec cfg acts)) = true.
Proof.
  induction acts as [|a acts IH]; intros cfg Hwf Hh; [exact Hh|].
  rewrite exec_cons. apply IH; auto using step_well_formed, step_single_process.
Qed.

Lemma step_no_reap_once_exited cfg a :
  well_formed cfg -> has_exited_ (watcher cfg) = true ->
  reaps (history (step cfg a)) = reaps (history cfg).
Proof.
  intros Hwf He. destruct a as [c|i]; unfold step.
  - unfold commit; cbn [history]. rewrite reaps_app.
    destruct (call_reaps c (watcher cfg) (world cfg)) as (_ & H0 & _).
    rewrite (H0 He). lia.
  - destruct (nth_error (sleepers cfg) i) as [k|] eqn:E; auto.
    unfold commit; cbn [history]. rewrite reaps_app.
    destruct (resume_reaps k (watcher cfg) (world cfg)) as (_ & H0 & _);
      [eauto using sleeper_sleeping|].
    rewrite (H0 He). lia.
Qed.

(** X7.  Once the watcher is marked as exited (by a reap, a failed probe
    or [reset]), [running] answers false without probing, whatever other
    threads do in between. *)
Theorem running_false_once_exited cfg (acts : list action) :
  well_formed cfg -> has_exited_ (watcher cfg) = true ->
  run running (watcher (exec cfg acts)) (world (exec cfg acts)) =
    mkResult (Returned false) (watcher (exec cfg acts)) (world (exec cfg acts)) [].
Proof.
  intros Hwf He. apply running_once_exited. now apply exec_keeps_exited.
Qed.

(** X10.  [wait_exit_] is written by [setWaitExit] only: through any
    interleaving without a [setWaitExit] call it keeps its value. *)
Theorem wait_exit_changes_only_by_setWaitExit cfg (acts : list action) :
  well_formed cfg ->
  forallb (fun a => negb (is_setWaitExit a)) acts = true ->
  wait_exit_ (watcher (exec cfg acts)) = wait_exit_ (watcher cfg).
Proof.
  revert cfg. induction acts as [|a acts IH]; intros cfg Hwf Ha; [reflexivity|].
  cbn [forallb] in Ha. apply andb_prop in Ha. destruct Ha as [Ha Hacts].
  apply negb_true_iff in Ha.
  rewrite exec_cons, IH; auto using step_well_formed, step_keeps_wait_exit.
Qed.

(** X11.  [status_] is written by a reap or by [reset] only: through any
    interleaving that contains no [reset] and adds no [waitpid] to the
    history it keeps its value. *)
Theorem status_changes_only_by_reap_or_reset cfg (acts : list action) :
  well_formed cfg ->
  forallb (fun a => negb (is_reset a)) acts = true ->
  reaps (history (exec cfg acts)) = reaps (history cfg) ->
  status_ (watcher (exec cfg acts)) = status_ (watcher cfg).
Proof.
  revert cfg. induction acts as [|a acts IH]; intros cfg Hwf Ha Hr; [reflexivity|].
  cbn [forallb] in Ha. apply andb_prop in Ha. destruct Ha as [Ha Hacts].
  apply negb_true_iff in Ha.
  rewrite exec_cons in *.
  pose proof (step_reaps_grow cfg a) as G1.
  pose proof (exec_reaps_grow acts (step cfg a)) as G2.
  rewrite IH; auto using step_well_formed; [|lia].
  apply step_keeps_status; auto. lia.
Qed.

(** X12.  Only [set_pid] broadcasts on the condition: through any
    interleaving without a [set_pid] call the number of [notifyAll]s in the
    history stays the same.  In particular [reset] wakes nobody. *)
Theorem only_set_pid_notifies cfg (acts : list action) :
  well_formed cfg ->
  forallb (fun a => negb (is_set_pid a)) acts = true ->
  notifies (history (exec cfg acts)) = notifies (history cfg).
Proof.
  revert cfg. induction acts as [|a acts IH]; intros cfg Hwf Ha; [reflexivity|].
  cbn [forallb] in Ha. apply andb_prop in Ha. destruct Ha as [Ha Hacts].
  apply negb_true_iff in Ha.
  rewrite exec_cons, IH; auto using step_well_formed, step_notifies.
Qed.

(** X13.  The watcher never signals or reaps a process group: over its
    whole life, however it was constructed and whatever is called on it,
    every [kill] and every [waitpid] it issues names a positive pid. *)
Theorem never_addresses_a_process_group s w (acts : list action) :
  forallb single_process
    (history (exec (fresh s w) acts) ++ evs (destroy (exec (fresh s w) acts))) = true.
Proof.
  rewrite forallb_app. apply andb_true_intro. split.
  - apply exec_single_process; [apply fresh_well_formed | reflexivity].
  - apply destructor_single_process.
Qed.

(** X14.  A method goes to sleep on the condition exactly when it is one
    of those that need a PID ([get_pid], [wait], the status accessors) and
    the watcher has none; [set_pid], [running], [reset], [terminate],
    [has_pid] and the flag accessors never sleep. *)
Theorem sleeps_exactly_for_missing_pid (c : call) s w :
  (exists k, res (run (method c) s w) = Waiting k) <->
  needs_pid c = true /\ assigned s = false.
Proof.
  unfold assigned. destruct s as [we p st he]. split.
  - intros [k H]. destruct c; crunch; try discriminate; split; finish.
  - intros [Hc Hs]. destruct c; try discriminate Hc; crunch;
      try (eexists; reflexivity); finish.
Qed.

(** X15.  Only [set_pid] throws, and it throws exactly for a pid below 1
    (invalid PID) or, with a valid pid, for a watcher that has a different
    PID (already watching). *)
Theorem throws_exactly_in_set_pid (c : call) s w (e : runtime_error) :
  res (run (method c) s w) = Thrown e <->
  exists p, c = c_set_pid p /\
    (p < 1 /\ e = invalid_PID p \/
     1 <= p /\ assigned s = true /\ p <> pid_ s /\ e = already_watching).
Proof.
  unfold assigned. destruct s as [we p0 st he]. split.
  - intros H. destruct c; crunch; try discriminate;
      injection H as <-; eexists; (split; [reflexivity|]); bools; cbn.
    + left. split; [lia | reflexivity].
    + right. repeat split; auto; lia.
  - intros (p & -> & [[Hp ->] | (Hp & Hs & Hne & ->)]); cbn in *; crunch; finish.
Qed.

(** X16.  The destructor always returns and never sleeps.  It calls
    [waitpid] (once, on [pid_]) exactly when a PID is there, [wait_exit_]
    is set and the watcher is not marked as exited; whenever it takes the
    [wait()] branch it leaves the watcher marked as exited. *)
Theorem destructor_effect s w :
  res (run destructor s w) = Returned tt /\
  evs (run destructor s w) =
    (if assigned s && wait_exit_ s && negb (has_exited_ s)
     then [EvWaitpid (pid_ s)] else []) /\
  has_exited_ (obj (run destructor s w)) =
    (assigned s && wait_exit_ s) || has_exited_ s.
Proof.
  unfold assigned. destruct s as [we p st he].
  repeat split; crunch; finish.
Qed.

(** X17.  [setWaitExit b] changes [wait_exit_] only and [getWaitExit] then
    answers [b]; after [setWaitExit false] the destructor does nothing,
    even for a watcher whose child is still running. *)
Theorem setWaitExit_effect s w (b : bool) :
  run (setWaitExit b) s w = mkResult (Returned tt) (with_wait_exit_ b s) w [] /\
  run getWaitExit (with_wait_exit_ b s) w =
    mkResult (Returned b) (with_wait_exit_ b s) w [] /\
  run destructor (with_wait_exit_ false s) w =
    mkResult (Returned tt) (with_wait_exit_ false s) w [].
Proof.
  destruct s as [we p st he].
  repeat split; crunch; finish.
Qed.

(** X18.  Deferred assignment: a thread calls [wait] on a default-constructed
    watcher and sleeps; another thread assigns the pid [p] of a child the
    system can reap; the sleeper is woken and reaps it.  The watcher then
    holds [p] and the reaped status, nobody is left asleep, and the history
    is: wait on the condition, broadcast, [waitpid]. *)
Theorem deferred_assignment_wakes_waiter w (p : pid_t) (st : Z) :
  0 < p -> fst (sys_waitpid w p) = Some st ->
  exec (fresh PIDWatcher_new w) [Call c_wait; Call (c_set_pid p); Wake 0] =
    mkConfig (mkPIDWatcher true p st true) (snd (sys_waitpid w p)) []
             [EvCondWait; EvNotifyAll; EvWaitpid p].
Proof.
  intros Hp Hst. unfold exec, fresh, PIDWatcher_new. cbn.
  unfold commit. crunch; finish.
  injection Hst as ->. reflexivity.
Qed.
(** X19.  A watcher marked as exited never calls [waitpid] again, neither
    in a method nor in its destructor, whatever is called on it: a child
    still alive when [reset] was called, or declared gone by a probe, is
    never reaped through this watcher, even if its pid is assigned anew. *)
Theorem never_reaps_once_exited cfg (acts : list action) :
  well_formed cfg -> has_exited_ (watcher cfg) = true ->
  reaps (history (exec cfg acts)) = reaps (history cfg) /\
  reaps (evs (destroy (exec cfg acts))) = 0%nat.
Proof.
  intros Hwf He. split.
  - revert cfg Hwf He.
    induction acts as [|a acts IH]; intros cfg Hwf He; [reflexivity|].
    rewrite exec_cons, IH;
      auto using step_well_formed, step_keeps_exited, step_no_reap_once_exited.
  - apply destructor_reaps. now apply exec_keeps_exited.
Qed.
End MoreInterleavings.

(** * The further properties on concrete watchers *)

(** A watcher whose child (pid 5) has been reaped by [wait]. *)
Lemma reaped_5_well_formed :
  well_formed (exec (fresh (PIDWatcher_of 5) one_child) [Call c_wait]).
Proof. constructor. Defined.

Lemma first_set_pid_then_get_pid_witness :
  0 < 5 /\ assigned PIDWatcher_new = false /\
  run (set_pid 5) PIDWatcher_new one_child =
    mkResult (Returned tt) (PIDWatcher_of 5) one_child [EvNotifyAll] /\
  run get_pid (PIDWatcher_of 5) one_child =
    mkResult (Returned 5) (PIDWatcher_of 5) one_child [].
Proof.
  split; [lia|]. split; [reflexivity|].
  apply (first_set_pid_then_get_pid PIDWatcher_new one_child 5); [lia|reflexivity].
Defined.

Lemma get_pid_sleeps_without_pid_witness :
  assigned PIDWatcher_new = false /\
  exists k : Prog pid_t,
    run get_pid PIDWatcher_new one_child =
      mkResult (Waiting k) PIDWatcher_new one_child [EvCondWait] /\
    forall s' w', run k s' w' = mkResult (Returned (pid_ s')) s' w' [].
Proof.
  split; [reflexivity|].
  exact (get_pid_sleeps_without_pid PIDWatcher_new one_child eq_refl).
Defined.

Lemma wait_reaps_running_child_witness :
  assigned (PIDWatcher_of 5) = true /\ has_exited_ (PIDWatcher_of 5) = false /\
  run wait (PIDWatcher_of 5) one_child =
    mkResult (Returned tt) (mkPIDWatcher true 5 1792 true) no_child [EvWaitpid 5] /\
  run wait (PIDWatcher_of 6) one_child =
    mkResult (Returned tt) (mkPIDWatcher true 6 0 true) one_child [EvWaitpid 6].
Proof.
  split; [reflexivity|]. split; [reflexivity|]. split.
  - exact (wait_reaps_running_child (PIDWatcher_of 5) one_child eq_refl eq_refl).
  - exact (wait_reaps_running_child (PIDWatcher_of 6) one_child eq_refl eq_refl).
Defined.

Lemma wait_woken_without_pid_witness :
  assigned PIDWatcher_new = false /\
  exists k : Prog unit,
    run wait PIDWatcher_new one_child =
      mkResult (Waiting k) PIDWatcher_new one_child [EvCondWait] /\
    (forall s' w', run k s' w' = run wait_ s' w') /\
    (forall s' w', assigned s' = false ->
       run k s' w' = mkResult (Returned tt) (with_has_exited_ true s') w' []).
Proof.
  split; [reflexivity|].
  exact (wait_woken_without_pid PIDWatcher_new one_child eq_refl).
Defined.

Lemma running_false_once_exited_witness :
  well_formed cleared /\ has_exited_ (watcher cleared) = true /\
  run running (watcher (exec cleared [Call (c_set_pid 5); Wake 0]))
              (world (exec cleared [Call (c_set_pid 5); Wake 0])) =
    mkResult (Returned false) (mkPIDWatcher true 5 0 true) one_child [].
Proof.
  split; [exact cleared_well_formed|]. split; [reflexivity|].
  exact (running_false_once_exited cleared [Call (c_set_pid 5); Wake 0]
           cleared_well_formed eq_refl).
Defined.

Lemma probe_then_wait_never_reaps_witness :
  assigned (PIDWatcher_of 6) = true /\ has_exited_ (PIDWatcher_of 6) = false /\
  fst (sys_kill one_child 6 0) <> 0 /\
  run running (PIDWatcher_of 6) one_child =
    mkResult (Returned false) (mkPIDWatcher true 6 0 true) one_child [EvKill 6 0] /\
  forall w' : children,
    run wait (mkPIDWatcher true 6 0 true) w' =
      mkResult (Returned tt) (mkPIDWatcher true 6 0 true) w' [].
Proof.
  assert (H : fst (sys_kill one_child 6 0) <> 0) by discriminate.
  split; [reflexivity|]. split; [reflexivity|]. split; [exact H|].
  exact (probe_then_wait_never_reaps (PIDWatcher_of 6) one_child eq_refl eq_refl H).
Defined.


Lemma wait_exit_changes_only_by_setWaitExit_witness :
  well_formed watching_5 /\
  wait_exit_ (watcher (exec watching_5 [Wake 0; Call c_wait; Call c_reset])) = true.
Proof.
  split; [exact watching_5_well_formed|].
  exact (wait_exit_changes_only_by_setWaitExit watching_5
           [Wake 0; Call c_wait; Call c_reset] watching_5_well_formed eq_refl).
Defined.

Lemma status_changes_only_by_reap_or_reset_witness :
  well_formed (exec (fresh (PIDWatcher_of 5) one_child) [Call c_wait]) /\
  status_ (watcher (exec (exec (fresh (PIDWatcher_of 5) one_child) [Call c_wait])
     [Call c_running; Call c_terminate; Call c_wait; Call (c_set_pid 5)])) = 1792.
Proof.
  split; [exact reaped_5_well_formed|].
  exact (status_changes_only_by_reap_or_reset
           (exec (fresh (PIDWatcher_of 5) one_child) [Call c_wait])
           [Call c_running; Call c_terminate; Call c_wait; Call (c_set_pid 5)]
           reaped_5_well_formed eq_refl eq_refl).
Defined.

Lemma only_set_pid_notifies_witness :
  well_formed watching_5 /\
  notifies (history (exec watching_5 [Call c_reset; Call c_running; Wake 0])) = 1%nat.
Proof.
  split; [exact watching_5_well_formed|].
  exact (only_set_pid_notifies watching_5 [Call c_reset; Call c_running; Wake 0]
           watching_5_well_formed eq_refl).
Defined.

Lemma deferred_assignment_wakes_waiter_witness :
  0 < 5 /\ fst (sys_waitpid one_child 5) = Some 1792 /\
  exec (fresh PIDWatcher_new one_child) [Call c_wait; Call (c_set_pid 5); Wake 0] =
    mkConfig (mkPIDWatcher true 5 1792 true) no_child []
             [EvCondWait; EvNotifyAll; EvWaitpid 5].
Proof.
  assert (H : 0 < 5) by lia.
  split; [exact H|]. split; [reflexivity|].
  exact (deferred_assignment_wakes_waiter one_child 5 1792 H eq_refl).
Defined.

Lemma never_reaps_once_exited_witness :
  well_formed cleared /\ has_exited_ (watcher cleared) = true /\
  reaps (history (exec cleared
     [Call (c_set_pid 5); Wake 0; Call c_wait; Call c_getExitStatus])) = 0%nat /\
  reaps (evs (destroy (exec cleared
     [Call (c_set_pid 5); Wake 0; Call c_wait; Call c_getExitStatus]))) = 0%nat.
Proof.
  split; [exact cleared_well_formed|]. split; [reflexivity|].
  exact (never_reaps_once_exited cleared
           [Call (c_set_pid 5); Wake 0; Call c_wait; Call c_getExitStatus]
           cleared_well_formed eq_refl).
Defined.
